(** * pr-agent MCP server (unit3/build-mcp-server/starter/server.py)

    A shallow embedding of the three tools of [server.py]:
    [analyze_file_changes], [get_pr_templates] and [suggest_template].

    Modelling conventions.
    - A Python [str] is a [string]; [lower] acts on the ASCII letters and
      leaves every other character as it is.
    - A Python [int] is a [Z]; [len] returns a [Z].
    - The value handed to [json.dumps] is a [json] tree; a tool returns that
      tree.  [json.loads (json.dumps v)] is [v] for these trees, so
      [suggest_template] receives the tree [get_pr_templates] built.
    - What the tools read from outside (the roots provider, the process
      directory, [git], the template files) is a field of a [World] or
      [Files] record.  The provider is asked once per [list_roots ()] call
      of the source: the n-th call of one invocation answers
      [list_roots w n].
    - A [try] block is a computation in the error monad [result]. *)

From Stdlib Require Import String Ascii List ZArith Lia Bool DecimalString.
Import ListNotations.

Local Open Scope string_scope.
Local Open Scope Z_scope.

(** ** Errors *)

Inductive result (E A : Type) : Type :=
| Ok (a : A)
| Raise (e : E).
Arguments Ok {E A} a.
Arguments Raise {E A} e.

Definition bind {E A B} (c : result E A) (k : A -> result E B) : result E B :=
  match c with
  | Ok a => k a
  | Raise e => Raise e
  end.

Notation "x <- c ;; k" := (bind c (fun x => k))
  (at level 61, c at next level, right associativity).

(** ** Python strings and lists *)

Module Py.

Definition len {A} (l : list A) : Z := Z.of_nat (length l).

(** [s.split(sep)] for a one-character separator. *)
Fixpoint split (sep : ascii) (s : string) : list string :=
  match s with
  | EmptyString => [EmptyString]
  | String c rest =>
      if Ascii.eqb c sep then EmptyString :: split sep rest
      else match split sep rest with
           | [] => [String c EmptyString]
           | seg :: segs => String c seg :: segs
           end
  end.

(** [sep.join(parts)] *)
Definition join (sep : string) (parts : list string) : string :=
  String.concat sep parts.

(** [l[:stop]]: a negative [stop] counts from the end. *)
Definition slice_to {A} (l : list A) (stop : Z) : list A :=
  if stop <? 0 then firstn (Z.to_nat (len l + stop)) l
  else firstn (Z.to_nat stop) l.

(** [str(n)] as an f-string prints an [int]. *)
Definition str_of_int (n : Z) : string :=
  NilZero.string_of_int (Z.to_int n).

Definition lower_char (c : ascii) : ascii :=
  let n := nat_of_ascii c in
  if (Nat.leb 65 n && Nat.leb n 90)%bool then ascii_of_nat (n + 32) else c.

(** [s.lower()] *)
Fixpoint lower (s : string) : string :=
  match s with
  | EmptyString => EmptyString
  | String c rest => String (lower_char c) (lower rest)
  end.

(** Truth value of an [Optional[str]]. *)
Definition truthy (o : option string) : bool :=
  match o with
  | None => false
  | Some s => negb (String.eqb s "")
  end.

(** [d.get(key, default)] on a dict with string values. *)
Fixpoint get {V} (d : list (string * V)) (key : string) (default : V) : V :=
  match d with
  | [] => default
  | (k, v) :: rest => if String.eqb k key then v else get rest key default
  end.

Fixpoint lookup {V} (d : list (string * V)) (key : string) : option V :=
  match d with
  | [] => None
  | (k, v) :: rest => if String.eqb k key then Some v else lookup rest key
  end.

(** [d[key] = v]: an existing key keeps its place. *)
Fixpoint set {V} (d : list (string * V)) (key : string) (v : V)
  : list (string * V) :=
  match d with
  | [] => [(key, v)]
  | (k, v0) :: rest =>
      if String.eqb k key then (k, v) :: rest else (k, v0) :: set rest key v
  end.

End Py.

Definition newline : ascii := "010"%char.
Definition nl : string := String newline EmptyString.

(** [needle in hay] *)
Fixpoint contains (needle hay : string) : bool :=
  (String.prefix needle hay
   || match hay with
      | EmptyString => false
      | String _ rest => contains needle rest
      end)%bool.

(** The number of occurrences of [c] in [s]. *)
Fixpoint count_char (c : ascii) (s : string) : nat :=
  match s with
  | EmptyString => 0%nat
  | String x rest =>
      if Ascii.eqb x c then S (count_char c rest) else count_char c rest
  end.

(** Each line followed by a newline, as [git] prints them. *)
Fixpoint terminated (lines : list string) : string :=
  match lines with
  | [] => EmptyString
  | l :: rest => l ++ nl ++ terminated rest
  end.

(** ** JSON values *)

#[warnings="-register-all"]
Inductive json : Type :=
| JNull
| JBool (b : bool)
| JInt (n : Z)
| JStr (s : string)
| JArr (items : list json)
| JObj (fields : list (string * json)).

Definition json_of_opt_str (o : option string) : json :=
  match o with
  | None => JNull
  | Some s => JStr s
  end.

(** The value of a field of a payload. *)
Definition field (key : string) (payload : json) : option json :=
  match payload with
  | JObj fields => Py.lookup fields key
  | _ => None
  end.

Definition keys (payload : json) : list string :=
  match payload with
  | JObj fields => map fst fields
  | _ => []
  end.

(** [text] occurs in a key or in a string of the tree. *)
Fixpoint occurs (text : string) (v : json) : bool :=
  match v with
  | JStr s => contains text s
  | JArr items => existsb (occurs text) items
  | JObj fields =>
      existsb (fun kv => let '(k, x) := kv in
                         (contains text k || occurs text x)%bool) fields
  | _ => false
  end.

(** ** The constant tables (lines 22-47) *)

Definition DEFAULT_TEMPLATES : list (string * string) :=
  [ ("bug.md", "Bug Fix");
    ("feature.md", "Feature");
    ("docs.md", "Documentation");
    ("refactor.md", "Refactor");
    ("test.md", "Test");
    ("performance.md", "Performance");
    ("security.md", "Security") ].

Definition TYPE_MAPPING : list (string * string) :=
  [ ("bug", "bug.md");
    ("fix", "bug.md");
    ("feature", "feature.md");
    ("enhancement", "feature.md");
    ("docs", "docs.md");
    ("documentation", "docs.md");
    ("refactor", "refactor.md");
    ("cleanup", "refactor.md");
    ("test", "test.md");
    ("testing", "test.md");
    ("performance", "performance.md");
    ("optimization", "performance.md");
    ("security", "security.md") ].

(** ** The world [analyze_file_changes] runs in *)

(** A root of the client: [str(root.uri)] and [root.uri.path]. *)
Record Root : Type := mkRoot {
  uri : string;
  uri_path : option string
}.

(** One [mcp.get_context().session.list_roots()] call: it raises, with the
    text [str(e)], or returns the roots. *)
Inductive roots_outcome : Type :=
| RootsRaised (msg : string)
| RootsResult (roots : list Root).

(** One [subprocess.run(..., capture_output=True, text=True)]: the call
    itself raises (no executable, no such directory, undecodable output),
    or the process completes. *)
Inductive run_outcome : Type :=
| RunRaised (msg : string)
| Completed (returncode : Z) (stdout stderr : string).

Record World : Type := mkWorld {
  list_roots : nat -> roots_outcome;
  getcwd : string;
  server_file_location : string;
  git : list string -> string -> run_outcome
}.

(** The two exception classes the handlers of lines 160-163 tell apart. *)
Inductive exn : Type :=
| CalledProcessError (stderr : string)
| Exception (msg : string).

Definition subprocess_run (w : World) (args : list string) (cwd : string)
    (check : bool) : result exn string :=
  match git w args cwd with
  | RunRaised msg => Raise (Exception msg)
  | Completed rc out err =>
      if (check && negb (rc =? 0))%bool then Raise (CalledProcessError err)
      else Ok out
  end.

(** ** analyze_file_changes (lines 51-163) *)

(** Lines 64-69: the body of the inner [try]. *)
Definition first_root_path (o : roots_outcome) : result exn (option string) :=
  match o with
  | RootsRaised msg => Raise (Exception msg)
  | RootsResult [] => Raise (Exception "list index out of range")
  | RootsResult (root :: _) => Ok (uri_path root)
  end.

(** Lines 62-72: [working_directory] after the roots were tried, and the
    number of provider calls made so far. *)
Definition after_roots (w : World) (working_directory : option string)
    : option string * nat :=
  match working_directory with
  | None =>
      match first_root_path (list_roots w 0) with
      | Ok path => (path, 1%nat)
      | Raise _ => (None, 1%nat)
      end
  | Some _ => (working_directory, 0%nat)
  end.

(** Line 75. *)
Definition choose_cwd (w : World) (working_directory : option string) : string :=
  if Py.truthy working_directory then
    match working_directory with
    | Some d => d
    | None => getcwd w
    end
  else getcwd w.

Definition resolve_cwd (w : World) (working_directory : option string) : string :=
  choose_cwd w (fst (after_roots w working_directory)).

(** Lines 87-99. *)
Definition roots_check (o : roots_outcome) : json :=
  match o with
  | RootsResult roots =>
      JObj [ ("found", JBool true);
             ("count", JInt (Py.len roots));
             ("roots", JArr (map (fun root => JStr (uri root)) roots)) ]
  | RootsRaised msg =>
      JObj [ ("found", JBool false);
             ("error", JStr msg) ]
  end.

(** Lines 62-99: the diagnostics record. *)
Definition debug_info (w : World) (working_directory : option string) : json :=
  let '(wd, calls) := after_roots w working_directory in
  let cwd := choose_cwd w wd in
  let d := [ ("provided_working_directory", json_of_opt_str wd);
             ("actual_cwd", JStr cwd);
             ("server_process_cwd", JStr (getcwd w));
             ("server_file_location", JStr (server_file_location w));
             ("roots_check", JNull) ] in
  JObj (Py.set d "roots_check" (roots_check (list_roots w calls))).

Definition truncation_notice (max_diff_lines total : Z) : string :=
  nl ++ nl ++ "... Output truncated. Showing " ++ Py.str_of_int max_diff_lines
     ++ " of " ++ Py.str_of_int total ++ " lines ..."
  ++ nl ++ "... Use max_diff_lines parameter to see more ...".

(** Lines 128-137: [(diff_content, truncated, len(diff_lines))]. *)
Definition cut_diff (stdout : string) (max_diff_lines : Z) : string * bool * Z :=
  let diff_lines := Py.split newline stdout in
  if Py.len diff_lines >? max_diff_lines then
    (Py.join nl (Py.slice_to diff_lines max_diff_lines)
       ++ truncation_notice max_diff_lines (Py.len diff_lines),
     true, Py.len diff_lines)
  else (stdout, false, Py.len diff_lines).

Definition placeholder : string :=
  "Diff not included (set include_diff=true to see full diff)".

(** The four queries (lines 103, 112, 123, 141). *)
Definition files_query (base_branch : string) : list string :=
  ["git"; "diff"; "--name-status"; base_branch ++ "...HEAD"].
Definition stat_query (base_branch : string) : list string :=
  ["git"; "diff"; "--stat"; base_branch ++ "...HEAD"].
Definition diff_query (base_branch : string) : list string :=
  ["git"; "diff"; base_branch ++ "...HEAD"].
Definition log_query (base_branch : string) : list string :=
  ["git"; "log"; "--oneline"; base_branch ++ "..HEAD"].

(** Lines 147-156: the report, from the texts collected and the triple
    [(diff_content, truncated, len(diff_lines))]. *)
Definition report_of (base_branch : string) (include_diff : bool)
    (files stat commits : string) (d : string * bool * Z) (dbg : json) : json :=
  let '(diff_content, truncated, total) := d in
  JObj [ ("base_branch", JStr base_branch);
         ("files_changed", JStr files);
         ("statistics", JStr stat);
         ("commits", JStr commits);
         ("diff", JStr (if include_diff then diff_content else placeholder));
         ("truncated", JBool truncated);
         ("total_diff_lines", JInt (if include_diff then total else 0));
         ("_debug", dbg) ].

(** Lines 118-137. *)
Definition diff_part (w : World) (base_branch : string) (max_diff_lines : Z)
    (include_diff : bool) (cwd : string) : result exn (string * bool * Z) :=
  if include_diff then
    out <- subprocess_run w (diff_query base_branch) cwd false ;;
    Ok (cut_diff out max_diff_lines)
  else Ok (EmptyString, false, 0).

(** Lines 61-158: the body of the outer [try]. *)
Definition analysis (w : World) (base_branch : string) (max_diff_lines : Z)
    (include_diff : bool) (working_directory : option string)
    : result exn json :=
  let cwd := resolve_cwd w working_directory in
  let dbg := debug_info w working_directory in
  files <- subprocess_run w (files_query base_branch) cwd true ;;
  stat <- subprocess_run w (stat_query base_branch) cwd false ;;
  d <- diff_part w base_branch max_diff_lines include_diff cwd ;;
  commits <- subprocess_run w (log_query base_branch) cwd false ;;
  Ok (report_of base_branch include_diff files stat commits d dbg).

Definition analyze_file_changes (w : World) (base_branch : string)
    (max_diff_lines : Z) (include_diff : bool)
    (working_directory : option string) : json :=
  match analysis w base_branch max_diff_lines include_diff working_directory with
  | Ok report => report
  | Raise (CalledProcessError stderr) =>
      JObj [ ("error", JStr ("Git error: " ++ stderr)) ]
  | Raise (Exception msg) =>
      JObj [ ("error", JStr msg) ]
  end.

(** ** get_pr_templates (lines 167-181) *)

(** [(TEMPLATES_DIR / name).read_text()] for each template file name: the
    text, or the [str(e)] of the exception raised. *)
Record Files : Type := mkFiles {
  read_text : string -> result string string
}.

(** Lines 171-178: the list comprehension, in the order of the table. *)
Fixpoint read_templates (fs : Files) (table : list (string * string))
    : result string (list json) :=
  match table with
  | [] => Ok []
  | (template_name, template_type) :: rest =>
      content <- read_text fs template_name ;;
      others <- read_templates fs rest ;;
      Ok (JObj [ ("filename", JStr template_name);
                 ("type", JStr template_type);
                 ("content", JStr content) ] :: others)
  end.

Definition get_pr_templates (fs : Files) : json :=
  match read_templates fs DEFAULT_TEMPLATES with
  | Ok templates => JArr templates
  | Raise msg => JObj [ ("error", JStr msg) ]
  end.

(** ** Operations on decoded JSON *)

(** The built-in exceptions these operations raise. *)
Inductive error_class : Type :=
| AttributeError
| TypeError
| KeyError
| IndexError
| UnboundLocalError.

(** An exception [e]: its class and the text [str(e)] (CPython 3.11
    wording). *)
Record pyerr : Type := PyErr {
  class : error_class;
  str : string
}.

Module Dyn.

Definition type_name (v : json) : string :=
  match v with
  | JNull => "NoneType"
  | JBool _ => "bool"
  | JInt _ => "int"
  | JStr _ => "str"
  | JArr _ => "list"
  | JObj _ => "dict"
  end.

Definition attribute_error (v : json) (attr : string) : pyerr :=
  PyErr AttributeError
    ("'" ++ type_name v ++ "' object has no attribute '" ++ attr ++ "'").

(** [v.get(key, default)] *)
Definition get (v : json) (key : string) (default : json) : result pyerr json :=
  match v with
  | JObj fields => Ok (Py.get fields key default)
  | _ => Raise (attribute_error v "get")
  end.

(** [v.lower()] *)
Definition lower (v : json) : result pyerr json :=
  match v with
  | JStr s => Ok (JStr (Py.lower s))
  | _ => Raise (attribute_error v "lower")
  end.

Fixpoint chars (s : string) : list json :=
  match s with
  | EmptyString => []
  | String c rest => JStr (String c EmptyString) :: chars rest
  end.

(** The elements [for x in v] visits. *)
Definition iter (v : json) : result pyerr (list json) :=
  match v with
  | JArr items => Ok items
  | JObj fields => Ok (map (fun kv => JStr (fst kv)) fields)
  | JStr s => Ok (chars s)
  | _ => Raise (PyErr TypeError ("'" ++ type_name v ++ "' object is not iterable"))
  end.

(** [v[key]] for a string [key]. *)
Definition item (v : json) (key : string) : result pyerr json :=
  match v with
  | JObj fields =>
      match Py.lookup fields key with
      | Some x => Ok x
      | None => Raise (PyErr KeyError ("'" ++ key ++ "'"))
      end
  | JStr _ => Raise (PyErr TypeError "string indices must be integers, not 'str'")
  | JArr _ =>
    Raise (PyErr TypeError "list indices must be integers or slices, not str")
  | _ => Raise (PyErr TypeError ("'" ++ type_name v ++ "' object is not subscriptable"))
  end.

(** [v[0]] *)
Definition first (v : json) : result pyerr json :=
  match v with
  | JArr (x :: _) => Ok x
  | JArr [] => Raise (PyErr IndexError "list index out of range")
  | JStr (String c _) => Ok (JStr (String c EmptyString))
  | JStr EmptyString => Raise (PyErr IndexError "string index out of range")
  | JObj _ => Raise (PyErr KeyError "0")
  | _ => Raise (PyErr TypeError ("'" ++ type_name v ++ "' object is not subscriptable"))
  end.

(** [v == s] for a string [s]. *)
Definition eq_str (v : json) (s : string) : bool :=
  match v with
  | JStr x => String.eqb x s
  | _ => false
  end.

End Dyn.

(** ** suggest_template (lines 185-223) *)

(** Line 198. *)
Definition template_type_of (change_type : string) : string :=
  Py.get TYPE_MAPPING (Py.lower change_type) "feature.md".

(** Lines 200-206: the loop over what is left to visit; [relative_template]
    is unbound ([None]) until its first assignment. *)
Fixpoint scan (templates : json) (template_type : string) (to_visit : list json)
    (relative_template : option json) : result pyerr (option json) :=
  match to_visit with
  | [] => Ok relative_template
  | template :: rest =>
      name <- Dyn.item template "filename" ;;
      if Dyn.eq_str name template_type then Ok (Some template)
      else
        head <- Dyn.first templates ;;
        scan templates template_type rest (Some head)
  end.

(** Lines 193-212: the body of the [try]. *)
Definition suggestion (fs : Files) (changes_summary change_type : string)
    : result pyerr json :=
  let templates := get_pr_templates fs in
  let template_type := template_type_of change_type in
  found <- Dyn.get templates template_type (JStr "") ;;
  template_with_relative_type <- Dyn.lower found ;;
  to_visit <- Dyn.iter templates ;;
  selected <- scan templates template_type to_visit None ;;
  relative_template <-
    match selected with
    | Some t => Ok t
    | None =>
        Raise (PyErr UnboundLocalError
                 "cannot access local variable 'relative_template' where it is not associated with a value")
    end ;;
  content <- Dyn.item relative_template "content" ;;
  Ok (JObj [ ("recommended_template", relative_template);
             ("reasoning",
              JStr ("Based on your analysis: '" ++ changes_summary
                    ++ "', this appears to be a " ++ change_type ++ " change."));
             ("template_content", content);
             ("suggestion",
              JStr "Claude can help you fill out this template based on the specific changes in your PR.") ]).

(** Lines 214-221: the payload of the [except] branch, for [str(e) = msg]. *)
Definition error_suggestion (msg : string) : json :=
  JObj [ ("recommended_template", JStr ("recommended_template " ++ msg));
         ("reasoning",
          JStr ("Based on your analysis: changes_summary, this appears to be a "
                ++ msg ++ " change."));
         ("template_content", JStr ("template_content " ++ msg));
         ("suggestion",
          JStr ("Claude can help you fill out this template based on the specific changes in your PR. "
                ++ msg)) ].

Definition suggest_template (fs : Files) (changes_summary change_type : string)
    : json :=
  match suggestion fs changes_summary change_type with
  | Ok s => s
  | Raise e => error_suggestion (str e)
  end.

(** ** Worlds and files to evaluate the tools on *)

(** A [git] that answers each of the four queries with a fixed outcome,
    in any directory. *)
Definition git_answers (files stat diff log : run_outcome)
    : list string -> string -> run_outcome :=
  fun args _ =>
    if String.eqb (nth 1 args "") "log" then log
    else if String.eqb (nth 2 args "") "--name-status" then files
    else if String.eqb (nth 2 args "") "--stat" then stat
    else diff.

(** A checkout in [/repo] served from [/srv]: the provider answers its
    first call with [first] and every later call with [later]. *)
Definition checkout (first later : roots_outcome) (git : list string -> string -> run_outcome)
    : World :=
  {| list_roots := fun n => match n with O => first | S _ => later end;
     getcwd := "/srv";
     server_file_location := "/srv/starter";
     git := git |}.

Definition repo_root : Root :=
  {| uri := "file:///repo"; uri_path := Some "/repo" |}.

(** [n] empty lines, each terminated. *)
Fixpoint blank_lines (n : nat) : string :=
  match n with
  | O => EmptyString
  | S k => String newline (blank_lines k)
  end.

(** A diff of [n] newline characters, with one changed file. *)
Definition blank_diff_world (n : nat) : World :=
  checkout (RootsResult [repo_root]) (RootsResult [repo_root])
    (git_answers (Completed 0 "M server.py" "") (Completed 0 " 1 file changed" "")
                 (Completed 0 (blank_lines n) "") (Completed 0 "abc123 edit" "")).

(** A diff of the three lines [a], [b], [c], the last one unterminated. *)
Definition abc_world : World :=
  checkout (RootsResult [repo_root]) (RootsResult [repo_root])
    (git_answers (Completed 0 "M server.py" "") (Completed 0 " 1 file changed" "")
                 (Completed 0 ("a" ++ nl ++ "b" ++ nl ++ "c") "")
                 (Completed 0 "abc123 edit" "")).

(** The file list fails as [git] does on an unknown base branch. *)
Definition bad_revision_world : World :=
  checkout (RootsResult [repo_root]) (RootsResult [repo_root])
    (git_answers (Completed 128 "" "fatal: bad revision")
                 (Completed 128 "" "fatal: bad revision")
                 (Completed 128 "" "fatal: bad revision")
                 (Completed 128 "" "fatal: bad revision")).

(** The file list succeeds; the three other queries exit with 1. *)
Definition lenient_world : World :=
  checkout (RootsResult [repo_root]) (RootsResult [repo_root])
    (git_answers (Completed 0 "M server.py" "")
                 (Completed 1 "" "stat failed")
                 (Completed 1 "" "diff failed")
                 (Completed 1 "" "log failed")).

(** The provider raises when asked the first time and answers afterwards. *)
Definition flaky_provider_world : World :=
  checkout (RootsRaised "boom") (RootsResult [repo_root])
    (git_answers (Completed 0 "M server.py" "") (Completed 0 " 1 file changed" "")
                 (Completed 0 ("a" ++ nl ++ "b" ++ nl ++ "c") "")
                 (Completed 0 "abc123 edit" "")).

(** The provider raises whenever it is asked. *)
Definition no_provider_world : World :=
  checkout (RootsRaised "Context is not available outside of a request")
           (RootsRaised "Context is not available outside of a request")
    (git_answers (Completed 0 "M server.py" "") (Completed 0 " 1 file changed" "")
                 (Completed 0 ("a" ++ nl ++ "b" ++ nl ++ "c") "")
                 (Completed 0 "abc123 edit" "")).

(** Every template file is there. *)
Definition templates_present : Files :=
  {| read_text := fun name => Ok ("## " ++ name) |}.

(** The templates directory is missing. *)
Definition templates_missing : Files :=
  {| read_text := fun name =>
       Raise ("[Errno 2] No such file or directory: 'templates/" ++ name ++ "'") |}.

(** ** Words of the specification *)

(** [text] is embedded in [s]. *)
Definition embeds (text s : string) : Prop :=
  exists pre post, s = pre ++ text ++ post.

(** An exception with the text [msg] occurs during the recommend operation:
    while the catalog is loaded, or in the lookup that follows. *)
Inductive raised_in_recommend (fs : Files) (changes_summary change_type : string)
    (msg : string) : Prop :=
| in_catalog_loading :
    read_templates fs DEFAULT_TEMPLATES = Raise msg ->
    raised_in_recommend fs changes_summary change_type msg
| in_lookup (e : pyerr) :
    suggestion fs changes_summary change_type = Raise e ->
    str e = msg ->
    raised_in_recommend fs changes_summary change_type msg.

(** ** Notions used to state further properties *)

(** The world [w] with another [git]. *)
Definition with_git (w : World) (g : list string -> string -> run_outcome)
    : World :=
  {| list_roots := list_roots w;
     getcwd := getcwd w;
     server_file_location := server_file_location w;
     git := g |}.

(** The keys of a report (lines 147-156), in order. *)
Definition report_keys : list string :=
  [ "base_branch"; "files_changed"; "statistics"; "commits";
    "diff"; "truncated"; "total_diff_lines"; "_debug" ].

(** The number of lines of a text, counted as line 128 counts them. *)
Definition line_count (s : string) : Z := Py.len (Py.split newline s).

(** The record lines 172-176 build for one template. *)
Definition template_record (name type content : string) : json :=
  JObj [ ("filename", JStr name); ("type", JStr type); ("content", JStr content) ].

(** The text of a template file, empty when it cannot be read. *)
Definition content_of (fs : Files) (name : string) : string :=
  match read_text fs name with
  | Ok content => content
  | Raise _ => EmptyString
  end.

Definition readable (fs : Files) (name : string) : Prop :=
  exists content, read_text fs name = Ok content.

(** The test of line 201 on one element. *)
Definition named (target : string) (template : json) : bool :=
  match field "filename" template with
  | Some name => Dyn.eq_str name target
  | None => false
  end.

(** An object with a [filename]. *)
Definition has_filename (template : json) : Prop :=
  exists fields name,
    template = JObj fields /\ Py.lookup fields "filename" = Some name.

(** Three records to run the loop of lines 200-206 on. *)
Definition three_templates : list json :=
  [ template_record "bug.md" "Bug Fix" "b";
    template_record "feature.md" "Feature" "f";
    template_record "docs.md" "Documentation" "d" ].

(** Only security.md, the last file of the table, cannot be read. *)
Definition security_unreadable : Files :=
  {| read_text := fun name =>
       if String.eqb name "security.md" then Raise "[Errno 13] Permission denied"
       else Ok ("## " ++ name) |}.

(** [git] cannot be started. *)
Definition no_git_world : World :=
  checkout (RootsResult [repo_root]) (RootsResult [repo_root])
    (fun _ _ => RunRaised "[Errno 2] No such file or directory: 'git'").

(** * Properties *)

(** ** Lines and splitting *)

Lemma split_not_nil (sep : ascii) (s : string) : Py.split sep s <> [].
Proof.
  destruct s as [|c s]; simpl; [discriminate|].
  destruct (Ascii.eqb c sep); [discriminate|].
  destruct (Py.split sep s); discriminate.
Qed.

Lemma split_length (sep : ascii) (s : string) :
  length (Py.split sep s) = S (count_char sep s).
Proof.
  induction s as [|c s IH]; simpl; [reflexivity|].
  destruct (Ascii.eqb c sep); simpl; [now rewrite IH|].
  destruct (Py.split sep s) as [|seg segs] eqn:E.
  - now destruct (split_not_nil sep s).
  - exact IH.
Qed.

Lemma split_len (sep : ascii) (s : string) :
  Py.len (Py.split sep s) = Z.of_nat (count_char sep s) + 1.
Proof. unfold Py.len. rewrite split_length. lia. Qed.

Lemma split_free (sep : ascii) (s : string) :
  count_char sep s = 0%nat -> Py.split sep s = [s].
Proof.
  induction s as [|c s IH]; simpl; [reflexivity|].
  destruct (Ascii.eqb c sep); [discriminate|].
  intros H. now rewrite (IH H).
Qed.

Lemma split_app (sep : ascii) (a b : string) :
  Py.split sep (a ++ String sep b) = (Py.split sep a ++ Py.split sep b)%list.
Proof.
  induction a as [|c a IH]; simpl.
  - now rewrite Ascii.eqb_refl.
  - destruct (Ascii.eqb c sep); [now rewrite IH|].
    rewrite IH. destruct (Py.split sep a) as [|seg segs] eqn:E.
    + now destruct (split_not_nil sep a).
    + reflexivity.
Qed.

Lemma split_terminated (lines : list string) :
  Forall (fun l => count_char newline l = 0%nat) lines ->
  Py.split newline (terminated lines) = (lines ++ [EmptyString])%list.
Proof.
  induction 1 as [|l rest Hl _ IH]; simpl; [reflexivity|].
  unfold nl. change (String newline EmptyString ++ terminated rest)
    with (String newline (terminated rest)).
  now rewrite split_app, IH, (split_free _ _ Hl).
Qed.

Lemma join_split (sep : ascii) (s : string) :
  Py.join (String sep EmptyString) (Py.split sep s) = s.
Proof.
  unfold Py.join. induction s as [|c s IH]; simpl; [reflexivity|].
  destruct (Ascii.eqb_spec c sep) as [->|_].
  - destruct (Py.split sep s) as [|seg segs] eqn:E.
    + now destruct (split_not_nil sep s).
    + simpl in *. now rewrite IH.
  - destruct (Py.split sep s) as [|seg segs] eqn:E.
    + now destruct (split_not_nil sep s).
    + destruct segs; simpl in *; now rewrite <- IH.
Qed.

(** ** Slices *)

Lemma slice_to_nonneg {A} (l : list A) (n : Z) :
  0 <= n -> Py.slice_to l n = firstn (Z.to_nat n) l.
Proof.
  intros H. unfold Py.slice_to.
  destruct (Z.ltb_spec n 0); [lia|reflexivity].
Qed.

Lemma slice_to_length {A} (l : list A) (n : Z) :
  0 <= n -> n < Py.len l -> Py.len (Py.slice_to l n) = n.
Proof.
  intros H0 H1. rewrite slice_to_nonneg by assumption.
  unfold Py.len in *. rewrite length_firstn. lia.
Qed.

(** ** Running the queries *)

Lemma subprocess_run_completed w args cwd check rc out err :
  git w args cwd = Completed rc out err ->
  (check = true -> rc = 0) ->
  subprocess_run w args cwd check = Ok out.
Proof.
  intros E H. unfold subprocess_run. rewrite E.
  destruct check; simpl; [|reflexivity].
  rewrite (H eq_refl). reflexivity.
Qed.

Lemma subprocess_run_inv w args cwd check out :
  subprocess_run w args cwd check = Ok out ->
  exists rc err, git w args cwd = Completed rc out err
                 /\ (check = true -> rc = 0).
Proof.
  unfold subprocess_run. destruct (git w args cwd) as [m|rc o e]; [discriminate|].
  destruct check; simpl.
  - destruct (Z.eqb_spec rc 0); simpl; [|discriminate].
    intros [= ->]. now exists rc, e.
  - intros [= ->]. exists rc, e. split; [reflexivity|discriminate].
Qed.

(** A report is returned exactly when the four steps go through. *)
Lemma analysis_inv w base n inc wd report :
  analysis w base n inc wd = Ok report ->
  exists files stat commits d,
    subprocess_run w (files_query base) (resolve_cwd w wd) true = Ok files
    /\ subprocess_run w (stat_query base) (resolve_cwd w wd) false = Ok stat
    /\ diff_part w base n inc (resolve_cwd w wd) = Ok d
    /\ subprocess_run w (log_query base) (resolve_cwd w wd) false = Ok commits
    /\ report = report_of base inc files stat commits d (debug_info w wd).
Proof.
  unfold analysis.
  destruct (subprocess_run w (files_query base) _ true) as [files|e];
    [|discriminate]; simpl.
  destruct (subprocess_run w (stat_query base) _ false) as [stat|e];
    [|discriminate]; simpl.
  destruct (diff_part w base n inc _) as [d|e]; [|discriminate]; simpl.
  destruct (subprocess_run w (log_query base) _ false) as [commits|e];
    [|discriminate]; simpl.
  intros [= <-]. now exists files, stat, commits, d.
Qed.

Lemma analysis_ok w base n inc wd files stat commits d :
  subprocess_run w (files_query base) (resolve_cwd w wd) true = Ok files ->
  subprocess_run w (stat_query base) (resolve_cwd w wd) false = Ok stat ->
  diff_part w base n inc (resolve_cwd w wd) = Ok d ->
  subprocess_run w (log_query base) (resolve_cwd w wd) false = Ok commits ->
  analysis w base n inc wd
  = Ok (report_of base inc files stat commits d (debug_info w wd)).
Proof.
  intros Hf Hs Hd Hl. unfold analysis.
  rewrite Hf; simpl. rewrite Hs; simpl. rewrite Hd; simpl. now rewrite Hl.
Qed.

Lemma analyze_of_analysis w base n inc wd report :
  analysis w base n inc wd = Ok report ->
  analyze_file_changes w base n inc wd = report.
Proof. intros H. unfold analyze_file_changes. now rewrite H. Qed.

Lemma diff_part_included w base n cwd d :
  diff_part w base n true cwd = Ok d ->
  exists rc out err,
    git w (diff_query base) cwd = Completed rc out err /\ d = cut_diff out n.
Proof.
  unfold diff_part.
  destruct (subprocess_run w (diff_query base) cwd false) as [out|e] eqn:E;
    [|discriminate]; simpl.
  intros [= <-]. apply subprocess_run_inv in E as (rc & err & E & _).
  now exists rc, out, err.
Qed.

Lemma field_report_diff base inc files stat commits dc tr tot dbg :
  field "diff" (report_of base inc files stat commits (dc, tr, tot) dbg)
  = Some (JStr (if inc then dc else placeholder)).
Proof. reflexivity. Qed.

Lemma field_report_truncated base inc files stat commits dc tr tot dbg :
  field "truncated" (report_of base inc files stat commits (dc, tr, tot) dbg)
  = Some (JBool tr).
Proof. reflexivity. Qed.

Lemma field_report_total base inc files stat commits dc tr tot dbg :
  field "total_diff_lines" (report_of base inc files stat commits (dc, tr, tot) dbg)
  = Some (JInt (if inc then tot else 0)).
Proof. reflexivity. Qed.

Lemma field_report_debug base inc files stat commits d dbg :
  field "_debug" (report_of base inc files stat commits d dbg) = Some dbg.
Proof. destruct d as [[dc tr] tot]. reflexivity. Qed.


(** ** Truncation of the diff *)

Lemma cut_diff_long (out : string) (n : Z) :
  0 <= n -> Py.len (Py.split newline out) > n ->
  cut_diff out n
  = (Py.join nl (firstn (Z.to_nat n) (Py.split newline out))
       ++ truncation_notice n (Py.len (Py.split newline out)),
     true, Py.len (Py.split newline out)).
Proof.
  intros H0 H. unfold cut_diff.
  destruct (Z.gtb_spec (Py.len (Py.split newline out)) n); [|lia].
  now rewrite slice_to_nonneg.
Qed.

Lemma cut_diff_short (out : string) (n : Z) :
  Py.len (Py.split newline out) <= n ->
  cut_diff out n = (out, false, Py.len (Py.split newline out)).
Proof.
  intros H. unfold cut_diff.
  destruct (Z.gtb_spec (Py.len (Py.split newline out)) n); [lia|reflexivity].
Qed.

Lemma cut_diff_total (out : string) (n : Z) :
  snd (cut_diff out n) = Py.len (Py.split newline out).
Proof.
  unfold cut_diff.
  now destruct (Py.len (Py.split newline out) >? n).
Qed.

Lemma total_diff_lines_counts_aux w base n wd report rc out err :
  analysis w base n true wd = Ok report ->
  git w (diff_query base) (resolve_cwd w wd) = Completed rc out err ->
  field "total_diff_lines" report = Some (JInt (Py.len (Py.split newline out))).
Proof.
  intros Hrep Hgit.
  apply analysis_inv in Hrep as (files & stat & commits & d & _ & _ & Hd & _ & ->).
  apply diff_part_included in Hd as (rc' & out' & err' & Hgit' & ->).
  rewrite Hgit in Hgit'. injection Hgit' as <- <- <-.
  pose proof (cut_diff_total out n) as Ht.
  destruct (cut_diff out n) as [[dc tr] tot]. simpl in Ht. subst tot.
  apply field_report_total.
Qed.

(** C1 (amended): with the diff included and [max_diff_lines = n >= 0], a
    report over a diff output of [L] lines (the pieces between newline
    characters) has, when [L > n], a diff made of the first [n] lines
    joined by newlines and then the two-line notice "Showing n of L
    lines" / "Use max_diff_lines parameter to see more", with
    [truncated] true; when [L <= n] the diff is the output itself and
    [truncated] is false. *)
Theorem diff_truncation w base n wd report rc out err :
  0 <= n ->
  analysis w base n true wd = Ok report ->
  git w (diff_query base) (resolve_cwd w wd) = Completed rc out err ->
  let diff_lines := Py.split newline out in
  let L := Py.len diff_lines in
  analyze_file_changes w base n true wd = report
  /\ (L > n ->
      field "diff" report
      = Some (JStr (Py.join nl (firstn (Z.to_nat n) diff_lines)
                    ++ nl ++ nl ++ "... Output truncated. Showing "
                    ++ Py.str_of_int n ++ " of " ++ Py.str_of_int L ++ " lines ..."
                    ++ nl ++ "... Use max_diff_lines parameter to see more ..."))
      /\ Py.len (firstn (Z.to_nat n) diff_lines) = n
      /\ field "truncated" report = Some (JBool true))
  /\ (L <= n ->
      field "diff" report = Some (JStr out)
      /\ field "truncated" report = Some (JBool false)).
Proof.
  intros Hn Hrep Hgit diff_lines L.
  split; [now apply analyze_of_analysis|].
  apply analysis_inv in Hrep as (files & stat & commits & d & _ & _ & Hd & _ & ->).
  apply diff_part_included in Hd as (rc' & out' & err' & Hgit' & ->).
  rewrite Hgit in Hgit'. injection Hgit' as <- <- <-.
  split; intros HL.
  - rewrite cut_diff_long by assumption.
    rewrite field_report_diff, field_report_truncated.
    repeat split.
    rewrite <- slice_to_nonneg by assumption.
    apply slice_to_length; [assumption|]. fold diff_lines. fold L. lia.
  - rewrite cut_diff_short by assumption.
    rewrite field_report_diff, field_report_truncated. now split.
Qed.

(** C6: in a report made with the diff included, [total_diff_lines] is the
    number of lines of the whole diff output, truncated or not; in a report
    made without it, [total_diff_lines] is 0 and [diff] is the placeholder. *)
Theorem total_diff_lines_counts w base n inc wd report :
  analysis w base n inc wd = Ok report ->
  analyze_file_changes w base n inc wd = report
  /\ (inc = true ->
      exists rc out err,
        git w (diff_query base) (resolve_cwd w wd) = Completed rc out err
        /\ field "total_diff_lines" report
           = Some (JInt (Py.len (Py.split newline out))))
  /\ (inc = false ->
      field "total_diff_lines" report = Some (JInt 0)
      /\ field "diff" report
         = Some (JStr "Diff not included (set include_diff=true to see full diff)")).
Proof.
  intros Hrep. split; [now apply analyze_of_analysis|].
  apply analysis_inv in Hrep as (files & stat & commits & d & _ & _ & Hd & _ & ->).
  split; intros ->.
  - apply diff_part_included in Hd as (rc & out & err & Hgit & ->).
    exists rc, out, err. split; [assumption|].
    pose proof (cut_diff_total out n) as Ht.
    destruct (cut_diff out n) as [[dc tr] tot]. simpl in Ht. subst tot.
    apply field_report_total.
  - injection Hd as <-. split; reflexivity.
Qed.

(** C10: the lines of the diff output are the pieces between its newline
    characters, so [total_diff_lines] is the number of newline characters
    plus one; an output of [k] newline-terminated lines counts [k + 1]
    lines, the last piece being empty, and an empty output counts 1. *)
Theorem total_diff_lines_by_newlines w base n wd report rc out err :
  analysis w base n true wd = Ok report ->
  git w (diff_query base) (resolve_cwd w wd) = Completed rc out err ->
  field "total_diff_lines" report
  = Some (JInt (Z.of_nat (count_char newline out) + 1))
  /\ (forall lines,
        Forall (fun l => count_char newline l = 0%nat) lines ->
        out = terminated lines ->
        Py.split newline out = (lines ++ [EmptyString])%list
        /\ field "total_diff_lines" report = Some (JInt (Py.len lines + 1)))
  /\ (out = EmptyString -> field "total_diff_lines" report = Some (JInt 1)).
Proof.
  intros Hrep Hgit.
  pose proof (total_diff_lines_counts_aux w base n wd report rc out err Hrep Hgit)
    as Htot.
  repeat split.
  - now rewrite Htot, split_len.
  - subst out. now apply split_terminated.
  - subst out. rewrite Htot, split_terminated by assumption.
    unfold Py.len. rewrite length_app. simpl. do 2 f_equal. lia.
  - intros ->. now rewrite Htot.
Qed.

(** A diff of 600 lines cut at 500, and one of 10 lines left whole. *)
Lemma diff_truncation_witness :
  (field "diff" (analyze_file_changes (blank_diff_world 599) "main" 500 true None)
   = Some (JStr (blank_lines 499 ++ nl ++ nl
                 ++ "... Output truncated. Showing 500 of 600 lines ..."
                 ++ nl ++ "... Use max_diff_lines parameter to see more ..."))
   /\ field "truncated" (analyze_file_changes (blank_diff_world 599) "main" 500 true None)
      = Some (JBool true))
  /\ (field "diff" (analyze_file_changes (blank_diff_world 9) "main" 500 true None)
      = Some (JStr (blank_lines 9))
      /\ field "truncated" (analyze_file_changes (blank_diff_world 9) "main" 500 true None)
         = Some (JBool false)).
Proof.
  split.
  - destruct (diff_truncation (blank_diff_world 599) "main" 500 None
                (analyze_file_changes (blank_diff_world 599) "main" 500 true None)
                0 (blank_lines 599) "")
      as (_ & Hlong & _); [lia|vm_compute; reflexivity|reflexivity|].
    destruct Hlong as (Hd & _ & Ht); [vm_compute; reflexivity|].
    split; [|exact Ht].
    rewrite Hd. vm_compute. reflexivity.
  - destruct (diff_truncation (blank_diff_world 9) "main" 500 None
                (analyze_file_changes (blank_diff_world 9) "main" 500 true None)
                0 (blank_lines 9) "")
      as (_ & _ & Hshort); [lia|vm_compute; reflexivity|reflexivity|].
    apply Hshort. vm_compute. discriminate.
Defined.

(** C1 as stated fails for a negative limit: with [max_diff_lines = -1] the
    three lines [a], [b], [c] are more than the limit, and the diff returned
    holds the first two of them, not the first [-1]. *)
Lemma diff_truncation_negative_limit :
  let out := "a" ++ nl ++ "b" ++ nl ++ "c" in
  let report := analyze_file_changes abc_world "main" (-1) true None in
  analysis abc_world "main" (-1) true None = Ok report
  /\ git abc_world (diff_query "main") (resolve_cwd abc_world None)
     = Completed 0 out ""
  /\ Py.len (Py.split newline out) > -1
  /\ field "diff" report
     = Some (JStr ("a" ++ nl ++ "b"
                   ++ nl ++ nl ++ "... Output truncated. Showing -1 of 3 lines ..."
                   ++ nl ++ "... Use max_diff_lines parameter to see more ..."))
  /\ field "diff" report
     <> Some (JStr (Py.join nl (firstn (Z.to_nat (-1)) (Py.split newline out))
                    ++ nl ++ nl ++ "... Output truncated. Showing "
                    ++ Py.str_of_int (-1) ++ " of "
                    ++ Py.str_of_int (Py.len (Py.split newline out)) ++ " lines ..."
                    ++ nl ++ "... Use max_diff_lines parameter to see more ..."))
  /\ Py.len (Py.slice_to (Py.split newline out) (-1)) <> -1.
Proof.
  cbv zeta. repeat split; try (vm_compute; reflexivity); vm_compute; discriminate.
Qed.

Lemma total_diff_lines_counts_witness :
  field "total_diff_lines" (analyze_file_changes abc_world "main" 2 true None)
  = Some (JInt 3)
  /\ field "total_diff_lines" (analyze_file_changes abc_world "main" 2 false None)
     = Some (JInt 0)
  /\ field "diff" (analyze_file_changes abc_world "main" 2 false None)
     = Some (JStr "Diff not included (set include_diff=true to see full diff)").
Proof.
  split.
  - destruct (total_diff_lines_counts abc_world "main" 2 true None
                (analyze_file_changes abc_world "main" 2 true None))
      as (_ & Hinc & _); [vm_compute; reflexivity|].
    destruct (Hinc eq_refl) as (rc & out & err & Hgit & Htot).
    injection Hgit as <- <- <-. exact Htot.
  - destruct (total_diff_lines_counts abc_world "main" 2 false None
                (analyze_file_changes abc_world "main" 2 false None))
      as (_ & _ & Hexc); [vm_compute; reflexivity|].
    exact (Hexc eq_refl).
Defined.

Lemma total_diff_lines_by_newlines_witness :
  field "total_diff_lines"
    (analyze_file_changes (blank_diff_world 3) "main" 500 true None)
  = Some (JInt 4)
  /\ field "total_diff_lines"
       (analyze_file_changes (blank_diff_world 0) "main" 500 true None)
     = Some (JInt 1).
Proof.
  split.
  - destruct (total_diff_lines_by_newlines (blank_diff_world 3) "main" 500 None
                (analyze_file_changes (blank_diff_world 3) "main" 500 true None)
                0 (blank_lines 3) "")
      as (_ & Hterm & _); [vm_compute; reflexivity|reflexivity|].
    destruct (Hterm [EmptyString; EmptyString; EmptyString]) as (_ & Htot);
      [repeat constructor|reflexivity|exact Htot].
  - destruct (total_diff_lines_by_newlines (blank_diff_world 0) "main" 500 None
                (analyze_file_changes (blank_diff_world 0) "main" 500 true None)
                0 EmptyString "")
      as (_ & _ & Hempty); [vm_compute; reflexivity|reflexivity|].
    exact (Hempty eq_refl).
Defined.

(** ** Failures of the queries *)

(** C2: when the file-list query exits with a non-zero status, the payload
    is the object with the single field [error], holding "Git error: "
    followed by the standard error text; when the file-list query exits
    with 0, any exit status of the stat, diff and log queries still gives
    a report, which carries their output and has no [error] field. *)
Theorem only_the_file_list_is_checked w base n inc wd :
  (forall rc out err,
      git w (files_query base) (resolve_cwd w wd) = Completed rc out err ->
      rc <> 0 ->
      analyze_file_changes w base n inc wd
      = JObj [ ("error", JStr ("Git error: " ++ err)) ])
  /\ (forall files ferr rs stat serr rd out derr rl commits lerr,
        git w (files_query base) (resolve_cwd w wd) = Completed 0 files ferr ->
        git w (stat_query base) (resolve_cwd w wd) = Completed rs stat serr ->
        (inc = true ->
         git w (diff_query base) (resolve_cwd w wd) = Completed rd out derr) ->
        git w (log_query base) (resolve_cwd w wd) = Completed rl commits lerr ->
        exists report,
          analysis w base n inc wd = Ok report
          /\ analyze_file_changes w base n inc wd = report
          /\ keys report
             = [ "base_branch"; "files_changed"; "statistics"; "commits";
                 "diff"; "truncated"; "total_diff_lines"; "_debug" ]
          /\ field "files_changed" report = Some (JStr files)
          /\ field "statistics" report = Some (JStr stat)
          /\ field "commits" report = Some (JStr commits)).
Proof.
  split.
  - intros rc out err Hgit Hrc.
    unfold analyze_file_changes, analysis, subprocess_run at 1.
    rewrite Hgit. simpl.
    destruct (Z.eqb_spec rc 0); [contradiction|reflexivity].
  - intros files ferr rs stat serr rd out derr rl commits lerr Hf Hs Hd Hl.
    assert (exists d, diff_part w base n inc (resolve_cwd w wd) = Ok d) as [d Hd'].
    { unfold diff_part. destruct inc; [|eauto].
      rewrite (subprocess_run_completed _ _ _ false _ _ _ (Hd eq_refl));
        [simpl; eauto|discriminate]. }
    pose proof (analysis_ok w base n inc wd files stat commits d
                  (subprocess_run_completed _ _ _ true _ _ _ Hf (fun _ => eq_refl))
                  (subprocess_run_completed _ _ _ false _ _ _ Hs
                     ltac:(discriminate))
                  Hd'
                  (subprocess_run_completed _ _ _ false _ _ _ Hl
                     ltac:(discriminate))) as Hrep.
    eexists. split; [exact Hrep|].
    split; [now apply analyze_of_analysis|].
    destruct d as [[dc tr] tot]. repeat split.
Qed.

Lemma only_the_file_list_is_checked_witness :
  analyze_file_changes bad_revision_world "main" 500 true None
  = JObj [ ("error", JStr "Git error: fatal: bad revision") ]
  /\ keys (analyze_file_changes lenient_world "main" 500 true None)
     = [ "base_branch"; "files_changed"; "statistics"; "commits";
         "diff"; "truncated"; "total_diff_lines"; "_debug" ].
Proof.
  split.
  - apply (proj1 (only_the_file_list_is_checked bad_revision_world "main" 500 true None)
             128 "" "fatal: bad revision"); [reflexivity|lia].
  - destruct (proj2 (only_the_file_list_is_checked lenient_world "main" 500 true None)
                "M server.py" "" 1 "" "stat failed" 1 "" "diff failed"
                1 "" "log failed")
      as (report & _ & <- & Hkeys & _);
      [reflexivity|reflexivity|reflexivity|reflexivity|exact Hkeys].
Defined.

(** ** The working directory *)

Lemma choose_cwd_some w d : d <> "" -> choose_cwd w (Some d) = d.
Proof.
  intros H. unfold choose_cwd; simpl.
  destruct (String.eqb_spec d ""); [contradiction|reflexivity].
Qed.

Lemma debug_actual_cwd w wd :
  field "actual_cwd" (debug_info w wd) = Some (JStr (resolve_cwd w wd)).
Proof.
  unfold debug_info, resolve_cwd.
  now destruct (after_roots w wd) as [wd' calls].
Qed.

(** C3 (amended): an explicit directory that is not the empty string is
    used as it is; with no explicit directory, the path of the first root
    the provider returns is used when it is present and not empty; in every
    other case (explicit empty string; provider raising or returning no
    root; first root with no path or an empty one) the process directory is
    used.  The directory chosen is the one the diagnostics report. *)
Theorem working_directory_resolution w wd :
  (forall d, wd = Some d -> d <> "" -> resolve_cwd w wd = d)
  /\ (forall root rest p,
        wd = None -> list_roots w 0 = RootsResult (root :: rest) ->
        uri_path root = Some p -> p <> "" ->
        resolve_cwd w wd = p)
  /\ (wd = Some ""
      \/ wd = None
         /\ ((exists msg, list_roots w 0 = RootsRaised msg)
             \/ list_roots w 0 = RootsResult []
             \/ exists root rest,
                 list_roots w 0 = RootsResult (root :: rest)
                 /\ (uri_path root = None \/ uri_path root = Some "")) ->
      resolve_cwd w wd = getcwd w)
  /\ field "actual_cwd" (debug_info w wd) = Some (JStr (resolve_cwd w wd)).
Proof.
  split; [|split; [|split]].
  - intros d -> Hd. now apply choose_cwd_some.
  - intros root rest p -> Hroots Hp Hne. unfold resolve_cwd, after_roots.
    rewrite Hroots; simpl. rewrite Hp. now apply choose_cwd_some.
  - intros [->|[-> H]]; [reflexivity|].
    unfold resolve_cwd, after_roots.
    destruct H as [[msg ->]|[->|(root & rest & -> & [Hp|Hp])]]; simpl;
      try rewrite Hp; reflexivity.
  - apply debug_actual_cwd.
Qed.

Lemma working_directory_resolution_witness :
  resolve_cwd abc_world (Some "/work") = "/work"
  /\ resolve_cwd abc_world None = "/repo"
  /\ resolve_cwd no_provider_world None = "/srv".
Proof.
  split; [|split].
  - apply (proj1 (working_directory_resolution abc_world (Some "/work")) "/work");
      [reflexivity|discriminate].
  - apply (proj1 (proj2 (working_directory_resolution abc_world None))
             repo_root [] "/repo"); [reflexivity|reflexivity|reflexivity|discriminate].
  - apply (proj1 (proj2 (proj2 (working_directory_resolution no_provider_world None)))).
    right. split; [reflexivity|]. left. eexists. reflexivity.
Defined.

(** C3 as stated fails for an explicit empty directory: it is provided, the
    provider has a root to offer, and the process directory is used, which
    is neither the directory provided nor the path of the first root. *)
Lemma explicit_empty_directory :
  list_roots abc_world 0 = RootsResult [repo_root]
  /\ uri_path repo_root = Some "/repo"
  /\ getcwd abc_world = "/srv"
  /\ resolve_cwd abc_world (Some "") = "/srv"
  /\ resolve_cwd abc_world (Some "") <> ""
  /\ resolve_cwd abc_world (Some "") <> "/repo"
  /\ field "actual_cwd" (debug_info abc_world (Some "")) = Some (JStr "/srv").
Proof. repeat split; (reflexivity || discriminate). Qed.

(** ** The diagnostics *)

Lemma debug_info_none_raised w msg :
  list_roots w 0 = RootsRaised msg ->
  debug_info w None
  = JObj [ ("provided_working_directory", JNull);
           ("actual_cwd", JStr (getcwd w));
           ("server_process_cwd", JStr (getcwd w));
           ("server_file_location", JStr (server_file_location w));
           ("roots_check", roots_check (list_roots w 1)) ].
Proof. intros H. unfold debug_info, after_roots. now rewrite H. Qed.

Lemma analysis_when_completed w base n inc wd
    files ferr rs stat serr rd out derr rl commits lerr :
  git w (files_query base) (resolve_cwd w wd) = Completed 0 files ferr ->
  git w (stat_query base) (resolve_cwd w wd) = Completed rs stat serr ->
  git w (diff_query base) (resolve_cwd w wd) = Completed rd out derr ->
  git w (log_query base) (resolve_cwd w wd) = Completed rl commits lerr ->
  exists d,
    analysis w base n inc wd
    = Ok (report_of base inc files stat commits d (debug_info w wd)).
Proof.
  intros Hf Hs Hd Hl.
  assert (exists d, diff_part w base n inc (resolve_cwd w wd) = Ok d) as [d Hd'].
  { unfold diff_part. destruct inc; [|eauto].
    rewrite (subprocess_run_completed _ _ _ false _ _ _ Hd); [simpl; eauto|discriminate]. }
  exists d. apply analysis_ok; try assumption.
  - now apply (subprocess_run_completed _ _ _ true _ _ _ Hf).
  - apply (subprocess_run_completed _ _ _ false _ _ _ Hs); discriminate.
  - apply (subprocess_run_completed _ _ _ false _ _ _ Hl); discriminate.
Qed.

(** C7 (amended): when the provider raises during the resolution, the
    error is dropped there and the process directory is used; the call still
    returns a report whenever the four queries complete and the file list
    exits with 0.  The diagnostics hold the directory after the resolution
    (null here), the directory used, and the outcome of a second provider
    call made after the resolution: they hold the text of the error of the
    resolution when that second call raises it again.  Every report carries
    its diagnostics under [_debug]. *)
Theorem provider_error_is_recovered w base n inc msg :
  list_roots w 0 = RootsRaised msg ->
  resolve_cwd w None = getcwd w
  /\ debug_info w None
     = JObj [ ("provided_working_directory", JNull);
              ("actual_cwd", JStr (getcwd w));
              ("server_process_cwd", JStr (getcwd w));
              ("server_file_location", JStr (server_file_location w));
              ("roots_check", roots_check (list_roots w 1)) ]
  /\ (list_roots w 1 = RootsRaised msg ->
      field "roots_check" (debug_info w None)
      = Some (JObj [ ("found", JBool false); ("error", JStr msg) ]))
  /\ (forall files ferr rs stat serr rd out derr rl commits lerr,
        git w (files_query base) (getcwd w) = Completed 0 files ferr ->
        git w (stat_query base) (getcwd w) = Completed rs stat serr ->
        git w (diff_query base) (getcwd w) = Completed rd out derr ->
        git w (log_query base) (getcwd w) = Completed rl commits lerr ->
        exists report,
          analysis w base n inc None = Ok report
          /\ analyze_file_changes w base n inc None = report
          /\ field "_debug" report = Some (debug_info w None))
  /\ (forall wd' base' n' inc' report,
        analysis w base' n' inc' wd' = Ok report ->
        field "_debug" report = Some (debug_info w wd')).
Proof.
  intros Hraise.
  assert (resolve_cwd w None = getcwd w) as Hcwd.
  { unfold resolve_cwd, after_roots. now rewrite Hraise. }
  split; [exact Hcwd|].
  split; [now apply debug_info_none_raised with (msg := msg)|].
  split.
  { intros Hagain. rewrite (debug_info_none_raised w msg Hraise), Hagain.
    reflexivity. }
  split.
  - intros files ferr rs stat serr rd out derr rl commits lerr Hf Hs Hd Hl.
    rewrite <- Hcwd in Hf, Hs, Hd, Hl.
    destruct (analysis_when_completed w base n inc None _ _ _ _ _ _ _ _ _ _ _
                Hf Hs Hd Hl) as [d Hrep].
    eexists. split; [exact Hrep|].
    split; [now apply analyze_of_analysis|apply field_report_debug].
  - intros wd' base' n' inc' report Hrep.
    apply analysis_inv in Hrep as (files & stat & commits & d & _ & _ & _ & _ & ->).
    apply field_report_debug.
Qed.

Lemma provider_error_is_recovered_witness :
  resolve_cwd no_provider_world None = "/srv"
  /\ field "roots_check" (debug_info no_provider_world None)
     = Some (JObj [ ("found", JBool false);
                    ("error", JStr "Context is not available outside of a request") ])
  /\ field "_debug" (analyze_file_changes no_provider_world "main" 500 true None)
     = Some (debug_info no_provider_world None).
Proof.
  destruct (provider_error_is_recovered no_provider_world "main" 500 true
              "Context is not available outside of a request" eq_refl)
    as (Hcwd & _ & Hcheck & Hrep & _).
  split; [exact Hcwd|]. split; [exact (Hcheck eq_refl)|].
  destruct (Hrep "M server.py" "" 0 " 1 file changed" ""
                 0 ("a" ++ nl ++ "b" ++ nl ++ "c") "" 0 "abc123 edit" "")
    as (report & _ & <- & Hdbg); [reflexivity|reflexivity|reflexivity|reflexivity|].
  exact Hdbg.
Defined.

(** C7 as stated fails when the provider raises during the resolution and
    answers the later call: the report says the roots were found, and the
    text of the error is nowhere in it. *)
Lemma resolution_error_not_recorded :
  let report := analyze_file_changes flaky_provider_world "main" 500 true None in
  list_roots flaky_provider_world 0 = RootsRaised "boom"
  /\ analysis flaky_provider_world "main" 500 true None = Ok report
  /\ field "_debug" report
     = Some (JObj [ ("provided_working_directory", JNull);
                    ("actual_cwd", JStr "/srv");
                    ("server_process_cwd", JStr "/srv");
                    ("server_file_location", JStr "/srv/starter");
                    ("roots_check",
                     JObj [ ("found", JBool true);
                            ("count", JInt 1);
                            ("roots", JArr [JStr "file:///repo"]) ]) ])
  /\ occurs "boom" report = false.
Proof. cbv zeta. repeat split; vm_compute; reflexivity. Qed.

(** ** Substrings *)

Lemma append_empty (s : string) : s ++ "" = s.
Proof. induction s as [|c s IH]; simpl; [reflexivity|now rewrite IH]. Qed.

Lemma prefix_app (p s : string) : String.prefix p (p ++ s) = true.
Proof.
  induction p as [|c p IH]; simpl; [now destruct s|].
  destruct (ascii_dec c c); [exact IH|contradiction].
Qed.

Lemma contains_eq (needle hay : string) :
  contains needle hay
  = (String.prefix needle hay
     || match hay with
        | EmptyString => false
        | String _ rest => contains needle rest
        end)%bool.
Proof. now destruct hay. Qed.

Lemma contains_app (text pre post : string) :
  contains text (pre ++ text ++ post) = true.
Proof.
  induction pre as [|c pre IH].
  - change (EmptyString ++ text ++ post) with (text ++ post).
    rewrite contains_eq, prefix_app. reflexivity.
  - change (String c pre ++ text ++ post) with (String c (pre ++ text ++ post)).
    rewrite contains_eq, IH. apply orb_true_r.
Qed.

Lemma embeds_contains (text s : string) : embeds text s -> contains text s = true.
Proof. intros (pre & post & ->). apply contains_app. Qed.

(** ** The catalog and the lookup *)

Lemma get_pr_templates_shape fs :
  get_pr_templates fs
  = match read_templates fs DEFAULT_TEMPLATES with
    | Ok templates => JArr templates
    | Raise msg => JObj [ ("error", JStr msg) ]
    end.
Proof. reflexivity. Qed.

Lemma get_in {V} (d : list (string * V)) (key : string) (default : V) :
  In (Py.get d key default) (default :: map snd d).
Proof.
  induction d as [|[k v] d IH]; simpl; [now left|].
  destruct (String.eqb k key); [right; now left|].
  destruct IH as [IH|IH]; [now left|right; now right].
Qed.

Lemma get_missing {V} (d : list (string * V)) (key : string) (default : V) :
  Py.lookup d key = None -> Py.get d key default = default.
Proof.
  induction d as [|[k v] d IH]; simpl; [reflexivity|].
  destruct (String.eqb k key); [discriminate|exact IH].
Qed.


Lemma template_type_is_not_error (change_type : string) :
  String.eqb "error" (template_type_of change_type) = false.
Proof.
  pose proof (get_in TYPE_MAPPING (Py.lower change_type) "feature.md") as H.
  fold (template_type_of change_type) in H. simpl in H.
  repeat (destruct H as [<-|H]; [reflexivity|]). contradiction.
Qed.

Lemma suggestion_over_list fs summary change_type templates :
  read_templates fs DEFAULT_TEMPLATES = Ok templates ->
  suggestion fs summary change_type
  = Raise (PyErr AttributeError "'list' object has no attribute 'get'").
Proof.
  intros H. unfold suggestion. rewrite get_pr_templates_shape, H. reflexivity.
Qed.

Lemma suggestion_over_error fs summary change_type msg :
  read_templates fs DEFAULT_TEMPLATES = Raise msg ->
  suggestion fs summary change_type
  = Raise (PyErr TypeError "string indices must be integers, not 'str'").
Proof.
  intros H. unfold suggestion. rewrite get_pr_templates_shape, H.
  cbn [Dyn.get Py.get bind]. rewrite template_type_is_not_error. reflexivity.
Qed.

(** C5: whatever the summary, the change type and the template files,
    [suggest_template] returns the payload of its [except] branch: on a
    loaded catalog the [.get] of line 199 raises on the list, and on a
    failed one the loop of line 200 visits the key of the error dict and
    line 201 indexes that string. *)
Theorem suggest_template_always_fails fs summary change_type :
  let e :=
    match read_templates fs DEFAULT_TEMPLATES with
    | Ok _ => PyErr AttributeError "'list' object has no attribute 'get'"
    | Raise _ => PyErr TypeError "string indices must be integers, not 'str'"
    end in
  suggestion fs summary change_type = Raise e
  /\ suggest_template fs summary change_type = error_suggestion (str e).
Proof.
  cbv zeta. unfold suggest_template.
  destruct (read_templates fs DEFAULT_TEMPLATES) as [templates|m] eqn:E.
  - now rewrite (suggestion_over_list fs summary change_type templates E).
  - now rewrite (suggestion_over_error fs summary change_type m E).
Qed.

(** C4, the failing input: with every template file present, the change
    type "fix" gets the error payload, whose [recommended_template] is a
    text and no template record named bug.md. *)
Theorem fix_gets_the_error_payload :
  Py.lookup TYPE_MAPPING "fix" = Some "bug.md"
  /\ suggest_template templates_present "null check added" "fix"
     = error_suggestion "'list' object has no attribute 'get'"
  /\ field "recommended_template"
       (suggest_template templates_present "null check added" "fix")
     = Some (JStr "recommended_template 'list' object has no attribute 'get'").
Proof. split; [reflexivity|split; vm_compute; reflexivity]. Qed.

(** Line 198 alone: a change type whose lower-case form is no key of the
    alias table gets the default file name. *)
Lemma unknown_type_gets_the_default (change_type : string) :
  Py.lookup TYPE_MAPPING (Py.lower change_type) = None ->
  template_type_of change_type = "feature.md".
Proof. intros H. unfold template_type_of. now apply get_missing. Qed.

(** C8, the failing input: "Chore" is no key of the alias table and line 198
    resolves it to feature.md, yet with every template file present the
    operation returns the error payload; and whatever the files, the summary
    and the change type, the text feature.md is nowhere in the payload of
    [suggest_template]. *)
Theorem unknown_type_gets_the_error_payload :
  Py.lookup TYPE_MAPPING (Py.lower "Chore") = None
  /\ template_type_of "Chore" = "feature.md"
  /\ suggest_template templates_present "dependency bump" "Chore"
     = error_suggestion "'list' object has no attribute 'get'"
  /\ field "recommended_template"
       (suggest_template templates_present "dependency bump" "Chore")
     = Some (JStr "recommended_template 'list' object has no attribute 'get'")
  /\ (forall fs summary change_type,
        occurs "feature.md" (suggest_template fs summary change_type) = false).
Proof.
  split; [reflexivity|].
  split; [apply unknown_type_gets_the_default; reflexivity|].
  split; [vm_compute; reflexivity|].
  split; [vm_compute; reflexivity|].
  intros fs summary change_type. unfold suggest_template.
  destruct (read_templates fs DEFAULT_TEMPLATES) as [templates|m] eqn:E.
  - rewrite (suggestion_over_list fs summary change_type templates E).
    vm_compute. reflexivity.
  - rewrite (suggestion_over_error fs summary change_type m E).
    vm_compute. reflexivity.
Qed.

(** C9 (amended): an exception raised in the [try] block of
    [suggest_template] gives the four-field payload with its text embedded
    in each field.  An exception of the catalog loading is not one of them:
    [get_pr_templates] catches it, and the text echoed is then that of the
    [TypeError] the lookup raises on the error dict. *)
Theorem error_text_in_every_field fs summary change_type e :
  suggestion fs summary change_type = Raise e ->
  let payload := suggest_template fs summary change_type in
  keys payload
  = [ "recommended_template"; "reasoning"; "template_content"; "suggestion" ]
  /\ (forall key, In key (keys payload) ->
        exists s, field key payload = Some (JStr s) /\ embeds (str e) s)
  /\ (forall m, read_templates fs DEFAULT_TEMPLATES = Raise m ->
        e = PyErr TypeError "string indices must be integers, not 'str'").
Proof.
  intros H. cbv zeta. unfold suggest_template. rewrite H.
  split; [reflexivity|]. split.
  - intros key [<-|[<-|[<-|[<-|[]]]]]; eexists; (split; [reflexivity|]).
    + exists "recommended_template ", "". now rewrite append_empty.
    + now exists "Based on your analysis: changes_summary, this appears to be a ",
        " change.".
    + exists "template_content ", "". now rewrite append_empty.
    + exists "Claude can help you fill out this template based on the specific changes in your PR. ", "".
      now rewrite append_empty.
  - intros m Hm.
    rewrite (suggestion_over_error fs summary change_type m Hm) in H.
    now injection H.
Qed.

Lemma error_text_in_every_field_witness :
  exists s,
    field "reasoning" (suggest_template templates_present "null check added" "fix")
    = Some (JStr s)
    /\ embeds "'list' object has no attribute 'get'" s.
Proof.
  destruct (error_text_in_every_field templates_present "null check added" "fix"
              (PyErr AttributeError "'list' object has no attribute 'get'") eq_refl)
    as (_ & Hall & _).
  apply Hall. right. left. reflexivity.
Defined.

(** C9 as stated fails for an exception of the catalog loading: with the
    templates directory missing, reading bug.md raises, and no field of the
    payload holds the text of that exception. *)
Lemma catalog_error_text_is_lost :
  let msg := "[Errno 2] No such file or directory: 'templates/bug.md'" in
  let payload := suggest_template templates_missing "null check added" "fix" in
  raised_in_recommend templates_missing "null check added" "fix" msg
  /\ field "recommended_template" payload
     = Some (JStr "recommended_template string indices must be integers, not 'str'")
  /\ ~ embeds msg "recommended_template string indices must be integers, not 'str'"
  /\ occurs msg payload = false.
Proof.
  cbv zeta. split; [now apply in_catalog_loading|].
  split; [reflexivity|]. split; [|vm_compute; reflexivity].
  intros H. apply embeds_contains in H. vm_compute in H. discriminate.
Qed.


(** * Further properties of the tools *)

(** ** The shape of the payload of [analyze_file_changes] *)

Lemma keys_report_of base inc files stat commits d dbg :
  keys (report_of base inc files stat commits d dbg) = report_keys.
Proof. destruct d as [[dc tr] tot]. reflexivity. Qed.

(** X1: the payload of [analyze_file_changes] is either a report with
    exactly the eight report keys, or the object with the single key
    [error] and a text; nothing in between is ever returned. *)
Theorem payload_is_report_or_error w base n inc wd :
  (exists report,
      analysis w base n inc wd = Ok report
      /\ analyze_file_changes w base n inc wd = report
      /\ keys report = report_keys
      /\ field "error" report = None)
  \/ (exists msg,
        analyze_file_changes w base n inc wd = JObj [ ("error", JStr msg) ]).
Proof.
  unfold analyze_file_changes.
  destruct (analysis w base n inc wd) as [report|[stderr|msg]] eqn:E.
  - left. exists report. split; [reflexivity|]. split; [reflexivity|].
    apply analysis_inv in E as (files & stat & commits & d & _ & _ & _ & _ & ->).
    destruct d as [[dc tr] tot]. split; reflexivity.
  - right. eexists. reflexivity.
  - right. eexists. reflexivity.
Qed.

Lemma subprocess_run_raised w args cwd check msg :
  git w args cwd = RunRaised msg ->
  subprocess_run w args cwd check = Raise (Exception msg).
Proof. intros H. unfold subprocess_run. now rewrite H. Qed.

(** X2: a query that cannot be run at all (as opposed to one that exits
    with a non-zero status) fails the whole call, whichever of the four it
    is: the payload is [{"error": str(e)}], without the "Git error: "
    prefix. *)
Theorem any_query_that_cannot_run_fails w base n inc wd msg :
  let cwd := resolve_cwd w wd in
  let failed := JObj [ ("error", JStr msg) ] in
  (git w (files_query base) cwd = RunRaised msg ->
   analyze_file_changes w base n inc wd = failed)
  /\ (forall files ferr,
        git w (files_query base) cwd = Completed 0 files ferr ->
        git w (stat_query base) cwd = RunRaised msg ->
        analyze_file_changes w base n inc wd = failed)
  /\ (forall files ferr rs stat serr,
        git w (files_query base) cwd = Completed 0 files ferr ->
        git w (stat_query base) cwd = Completed rs stat serr ->
        inc = true ->
        git w (diff_query base) cwd = RunRaised msg ->
        analyze_file_changes w base n inc wd = failed)
  /\ (forall files ferr rs stat serr d,
        git w (files_query base) cwd = Completed 0 files ferr ->
        git w (stat_query base) cwd = Completed rs stat serr ->
        diff_part w base n inc cwd = Ok d ->
        git w (log_query base) cwd = RunRaised msg ->
        analyze_file_changes w base n inc wd = failed).
Proof.
  cbv zeta. unfold analyze_file_changes, analysis.
  split; [|split; [|split]].
  - intros H. now rewrite (subprocess_run_raised _ _ _ _ _ H).
  - intros files ferr Hf H.
    rewrite (subprocess_run_completed _ _ _ true _ _ _ Hf (fun _ => eq_refl)).
    simpl. now rewrite (subprocess_run_raised _ _ _ _ _ H).
  - intros files ferr rs stat serr Hf Hs -> H.
    rewrite (subprocess_run_completed _ _ _ true _ _ _ Hf (fun _ => eq_refl)).
    simpl.
    rewrite (subprocess_run_completed _ _ _ false _ _ _ Hs ltac:(discriminate)).
    simpl. unfold diff_part. now rewrite (subprocess_run_raised _ _ _ _ _ H).
  - intros files ferr rs stat serr d Hf Hs Hd H.
    rewrite (subprocess_run_completed _ _ _ true _ _ _ Hf (fun _ => eq_refl)).
    simpl.
    rewrite (subprocess_run_completed _ _ _ false _ _ _ Hs ltac:(discriminate)).
    simpl. rewrite Hd. simpl. now rewrite (subprocess_run_raised _ _ _ _ _ H).
Qed.

Lemma any_query_that_cannot_run_fails_witness :
  analyze_file_changes no_git_world "main" 500 true None
  = JObj [ ("error", JStr "[Errno 2] No such file or directory: 'git'") ].
Proof.
  apply (proj1 (any_query_that_cannot_run_fails no_git_world "main" 500 true None
                  "[Errno 2] No such file or directory: 'git'")).
  reflexivity.
Defined.

(** ** Calls that leave the diff out *)

Lemma subprocess_run_with_git w g args cwd check :
  g args cwd = git w args cwd ->
  subprocess_run (with_git w g) args cwd check = subprocess_run w args cwd check.
Proof. intros H. unfold subprocess_run. simpl. now rewrite H. Qed.

(** X3: with [include_diff = false] the diff query is not made and the
    limit is not looked at: the payload is the same for every
    [max_diff_lines] and whatever [git] would answer to the diff query. *)
Theorem excluded_diff_is_not_queried w g base n n' wd :
  (forall args cwd, args <> diff_query base -> g args cwd = git w args cwd) ->
  analyze_file_changes (with_git w g) base n false wd
  = analyze_file_changes w base n' false wd.
Proof.
  intros Hg. unfold analyze_file_changes, analysis, diff_part.
  change (resolve_cwd (with_git w g) wd) with (resolve_cwd w wd).
  change (debug_info (with_git w g) wd) with (debug_info w wd).
  rewrite !subprocess_run_with_git; [reflexivity| | |];
    apply Hg; discriminate.
Qed.

Lemma excluded_diff_is_not_queried_witness :
  analyze_file_changes
    (with_git abc_world
       (fun args cwd =>
          if list_eq_dec string_dec args (diff_query "main")
          then RunRaised "diff is broken"
          else git abc_world args cwd))
    "main" 0 false None
  = analyze_file_changes abc_world "main" 500 false None.
Proof.
  apply excluded_diff_is_not_queried.
  intros args cwd H.
  destruct (list_eq_dec string_dec args (diff_query "main"));
    [contradiction|reflexivity].
Defined.

(** ** The size of the diff returned *)

Lemma count_char_app (c : ascii) (a b : string) :
  count_char c (a ++ b) = (count_char c a + count_char c b)%nat.
Proof.
  induction a as [|x a IH]; simpl; [reflexivity|].
  destruct (Ascii.eqb x c); simpl; now rewrite IH.
Qed.

Lemma split_pieces_free (sep : ascii) (s : string) :
  Forall (fun l => count_char sep l = 0%nat) (Py.split sep s).
Proof.
  induction s as [|c s IH]; simpl; [now repeat constructor|].
  destruct (Ascii.eqb c sep) eqn:E; [now constructor|].
  destruct (Py.split sep s) as [|seg segs]; [repeat constructor; simpl; now rewrite E|].
  inversion IH as [|? ? Hseg Hsegs]; subst.
  constructor; [simpl; now rewrite E|assumption].
Qed.

Lemma firstn_all_free {A} (P : A -> Prop) (n : nat) (l : list A) :
  Forall P l -> Forall P (firstn n l).
Proof.
  intros H. revert n. induction H as [|x l Hx _ IH]; intros [|n]; simpl;
    constructor; auto.
Qed.

Lemma join_newlines (lines : list string) :
  Forall (fun l => count_char newline l = 0%nat) lines ->
  count_char newline (Py.join nl lines) = pred (length lines).
Proof.
  unfold Py.join. induction 1 as [|x rest Hx Hrest IH]; [reflexivity|].
  destruct rest as [|y rest]; [exact Hx|].
  change (String.concat nl (x :: y :: rest))
    with (x ++ nl ++ String.concat nl (y :: rest)).
  rewrite !count_char_app, Hx, IH. reflexivity.
Qed.

Lemma digits_free (d : Decimal.uint) :
  count_char newline (NilEmpty.string_of_uint d) = 0%nat.
Proof. induction d; simpl; auto. Qed.

Lemma str_of_int_free (z : Z) : count_char newline (Py.str_of_int z) = 0%nat.
Proof.
  unfold Py.str_of_int.
  destruct (Z.to_int z) as [d|d]; simpl;
    destruct d; simpl; auto using digits_free.
Qed.

Lemma notice_newlines (n total : Z) :
  count_char newline (truncation_notice n total) = 3%nat.
Proof.
  unfold truncation_notice.
  rewrite !count_char_app, !str_of_int_free. reflexivity.
Qed.

Lemma line_count_newlines (s : string) :
  line_count s = Z.of_nat (count_char newline s) + 1.
Proof. apply split_len. Qed.

Lemma append_associative (a b c : string) : (a ++ b) ++ c = a ++ b ++ c.
Proof. induction a as [|x a IH]; simpl; [reflexivity|now rewrite IH]. Qed.

Lemma join_app (sep : string) (a b : list string) :
  a <> [] -> b <> [] ->
  Py.join sep (a ++ b) = Py.join sep a ++ sep ++ Py.join sep b.
Proof.
  unfold Py.join. intros Ha Hb. induction a as [|x a IH]; [contradiction|].
  destruct a as [|y a].
  - destruct b as [|z b]; [contradiction|reflexivity].
  - change (String.concat sep ((x :: y :: a) ++ b))
      with (x ++ sep ++ String.concat sep ((y :: a) ++ b)).
    rewrite IH by discriminate.
    change (String.concat sep (x :: y :: a))
      with (x ++ sep ++ String.concat sep (y :: a)).
    now rewrite !append_associative.
Qed.

(** The lines kept are a prefix of the text they were split from. *)
Lemma kept_lines_prefix (out : string) (k : nat) :
  exists rest, out = Py.join nl (firstn k (Py.split newline out)) ++ rest.
Proof.
  pose proof (join_split newline out) as Hout. fold nl in Hout.
  pose proof (firstn_skipn k (Py.split newline out)) as Hcut.
  destruct (firstn k (Py.split newline out)) as [|x a] eqn:Ea.
  - exists out. reflexivity.
  - destruct (skipn k (Py.split newline out)) as [|y b] eqn:Eb.
    + exists EmptyString. rewrite app_nil_r in Hcut.
      now rewrite Hcut, Hout, append_empty.
    + exists (nl ++ Py.join nl (y :: b)).
      rewrite <- join_app by discriminate. now rewrite Hcut, Hout.
Qed.

Lemma report_included w base n wd report rc out err :
  analysis w base n true wd = Ok report ->
  git w (diff_query base) (resolve_cwd w wd) = Completed rc out err ->
  exists files stat commits,
    report = report_of base true files stat commits (cut_diff out n)
               (debug_info w wd).
Proof.
  intros Hrep Hgit.
  apply analysis_inv in Hrep as (files & stat & commits & d & _ & _ & Hd & _ & ->).
  apply diff_part_included in Hd as (rc' & out' & err' & Hgit' & ->).
  rewrite Hgit in Hgit'. injection Hgit' as <- <- <-.
  now exists files, stat, commits.
Qed.

(** X4: in every report [truncated] says exactly whether the diff has more
    lines than the limit: with the diff included, [truncated] is true if and
    only if [total_diff_lines > max_diff_lines], and [total_diff_lines] is at
    least 1; with the diff left out, [truncated] is false and
    [total_diff_lines] is 0. *)
Theorem truncated_iff_over_limit w base n inc wd report :
  analysis w base n inc wd = Ok report ->
  exists truncated total,
    field "truncated" report = Some (JBool truncated)
    /\ field "total_diff_lines" report = Some (JInt total)
    /\ (inc = true -> (truncated = true <-> total > n) /\ 1 <= total)
    /\ (inc = false -> truncated = false /\ total = 0).
Proof.
  intros Hrep.
  apply analysis_inv in Hrep as (files & stat & commits & d & _ & _ & Hd & _ & ->).
  destruct inc.
  - apply diff_part_included in Hd as (rc & out & err & _ & ->).
    pose proof (split_len newline out) as HL.
    unfold cut_diff.
    destruct (Z.gtb_spec (Py.len (Py.split newline out)) n) as [Hgt|Hle].
    + eexists _, _. repeat split; try discriminate; lia.
    + eexists _, _. repeat split; try discriminate; lia.
  - injection Hd as <-. exists false, 0. repeat split; discriminate.
Qed.

Lemma truncated_iff_over_limit_witness :
  exists truncated total,
    field "truncated" (analyze_file_changes abc_world "main" 2 true None)
    = Some (JBool truncated)
    /\ field "total_diff_lines" (analyze_file_changes abc_world "main" 2 true None)
       = Some (JInt total)
    /\ (truncated = true <-> total > 2).
Proof.
  destruct (truncated_iff_over_limit abc_world "main" 2 true None
              (analyze_file_changes abc_world "main" 2 true None))
    as (truncated & total & Ht & Hn & Hinc & _); [vm_compute; reflexivity|].
  exists truncated, total. split; [exact Ht|]. split; [exact Hn|].
  exact (proj1 (Hinc eq_refl)).
Defined.

(** X5: a limit of 0 or less truncates every diff, the empty one too,
    since a diff output always counts at least one line; with the limit 0
    the diff returned is the notice alone. *)
Theorem non_positive_limit_always_truncates w base n wd report rc out err :
  n <= 0 ->
  analysis w base n true wd = Ok report ->
  git w (diff_query base) (resolve_cwd w wd) = Completed rc out err ->
  field "truncated" report = Some (JBool true)
  /\ (n = 0 ->
      field "diff" report
      = Some (JStr (nl ++ nl ++ "... Output truncated. Showing 0 of "
                    ++ Py.str_of_int (line_count out) ++ " lines ..."
                    ++ nl ++ "... Use max_diff_lines parameter to see more ..."))).
Proof.
  intros Hn Hrep Hgit.
  destruct (report_included w base n wd report rc out err Hrep Hgit)
    as (files & stat & commits & ->).
  pose proof (split_len newline out) as HL.
  unfold cut_diff.
  destruct (Z.gtb_spec (Py.len (Py.split newline out)) n) as [Hgt|Hle]; [|lia].
  split; [reflexivity|]. intros ->. reflexivity.
Qed.

Lemma non_positive_limit_always_truncates_witness :
  field "truncated" (analyze_file_changes (blank_diff_world 0) "main" 0 true None)
  = Some (JBool true)
  /\ field "diff" (analyze_file_changes (blank_diff_world 0) "main" 0 true None)
     = Some (JStr (nl ++ nl ++ "... Output truncated. Showing 0 of 1 lines ..."
                   ++ nl ++ "... Use max_diff_lines parameter to see more ...")).
Proof.
  destruct (non_positive_limit_always_truncates (blank_diff_world 0) "main" 0 None
              (analyze_file_changes (blank_diff_world 0) "main" 0 true None)
              0 EmptyString "")
    as (Ht & Hd); [lia|vm_compute; reflexivity|reflexivity|].
  split; [exact Ht|exact (Hd eq_refl)].
Defined.

(** X6: truncation never rewrites what it keeps: for a limit [n >= 0]
    below the number of lines, the diff returned is a prefix of the diff
    output followed by the notice. *)
Theorem truncated_diff_keeps_a_prefix w base n wd report rc out err :
  0 <= n -> line_count out > n ->
  analysis w base n true wd = Ok report ->
  git w (diff_query base) (resolve_cwd w wd) = Completed rc out err ->
  exists kept rest,
    out = kept ++ rest
    /\ field "diff" report
       = Some (JStr (kept ++ truncation_notice n (line_count out))).
Proof.
  intros Hn HL Hrep Hgit.
  destruct (report_included w base n wd report rc out err Hrep Hgit)
    as (files & stat & commits & ->).
  destruct (kept_lines_prefix out (Z.to_nat n)) as [rest Hrest].
  exists (Py.join nl (firstn (Z.to_nat n) (Py.split newline out))), rest.
  split; [exact Hrest|].
  now rewrite cut_diff_long.
Qed.

Lemma truncated_diff_keeps_a_prefix_witness :
  exists kept rest,
    "a" ++ nl ++ "b" ++ nl ++ "c" = kept ++ rest
    /\ field "diff" (analyze_file_changes abc_world "main" 2 true None)
       = Some (JStr (kept ++ truncation_notice 2 3)).
Proof.
  apply (truncated_diff_keeps_a_prefix abc_world "main" 2 None
           (analyze_file_changes abc_world "main" 2 true None)
           0 ("a" ++ nl ++ "b" ++ nl ++ "c") "");
    [lia|vm_compute; reflexivity|vm_compute; reflexivity|reflexivity].
Defined.

(** X7: the limit bounds what is returned: for a limit [n >= 0] the diff
    of a report has at most [n + 4] lines, and a truncated one with
    [n >= 1] has exactly [n + 3]: the [n] lines kept, an empty line and the
    two lines of the notice. *)
Theorem returned_diff_is_bounded w base n wd report rc out err :
  0 <= n ->
  analysis w base n true wd = Ok report ->
  git w (diff_query base) (resolve_cwd w wd) = Completed rc out err ->
  exists text,
    field "diff" report = Some (JStr text)
    /\ line_count text <= n + 4
    /\ (1 <= n -> line_count out > n -> line_count text = n + 3).
Proof.
  intros Hn Hrep Hgit.
  destruct (report_included w base n wd report rc out err Hrep Hgit)
    as (files & stat & commits & ->).
  destruct (Z.gtb_spec (line_count out) n) as [Hgt|Hle].
  - rewrite cut_diff_long by (assumption || (unfold line_count in Hgt; lia)).
    eexists. split; [reflexivity|].
    rewrite line_count_newlines, count_char_app, notice_newlines.
    rewrite join_newlines by (apply firstn_all_free, split_pieces_free).
    rewrite length_firstn.
    unfold line_count, Py.len in Hgt. split; [lia|]. intros H1 _. lia.
  - rewrite cut_diff_short by assumption.
    eexists. split; [reflexivity|]. split; [lia|]. intros _ H. lia.
Qed.

Lemma returned_diff_is_bounded_witness :
  exists text,
    field "diff" (analyze_file_changes (blank_diff_world 599) "main" 500 true None)
    = Some (JStr text)
    /\ line_count text = 503.
Proof.
  destruct (returned_diff_is_bounded (blank_diff_world 599) "main" 500 None
              (analyze_file_changes (blank_diff_world 599) "main" 500 true None)
              0 (blank_lines 599) "")
    as (text & Hd & _ & Hexact); [lia|vm_compute; reflexivity|reflexivity|].
  exists text. split; [exact Hd|].
  apply Hexact; [lia|vm_compute; reflexivity].
Defined.

(** ** The catalog *)

Lemma read_templates_all fs table :
  (forall name, In name (map fst table) -> readable fs name) ->
  read_templates fs table
  = Ok (map (fun entry => template_record (fst entry) (snd entry)
                            (content_of fs (fst entry))) table).
Proof.
  induction table as [|[name type] rest IH]; intros H; simpl; [reflexivity|].
  destruct (H name (or_introl eq_refl)) as [content Hc].
  unfold content_of at 1. rewrite Hc. simpl.
  rewrite IH by (intros x Hx; apply H; now right). reflexivity.
Qed.

Lemma read_templates_inv fs table templates :
  read_templates fs table = Ok templates ->
  forall name, In name (map fst table) -> readable fs name.
Proof.
  revert templates. induction table as [|[name type] rest IH];
    intros templates H x Hx; [contradiction|].
  simpl in H. destruct (read_text fs name) as [content|msg] eqn:Hc;
    [|discriminate]. simpl in H.
  destruct (read_templates fs rest) as [others|msg] eqn:Hr; [|discriminate].
  destruct Hx as [<-|Hx]; [now exists content|]. now apply (IH others).
Qed.

Lemma read_templates_first_failure fs before name type after msg :
  (forall x, In x (map fst before) -> readable fs x) ->
  read_text fs name = Raise msg ->
  read_templates fs (before ++ (name, type) :: after) = Raise msg.
Proof.
  induction before as [|[n t] before IH]; intros Hb Hn; simpl.
  - now rewrite Hn.
  - destruct (Hb n (or_introl eq_refl)) as [content Hc]. rewrite Hc. simpl.
    rewrite IH; [reflexivity| |assumption].
    intros x Hx. apply Hb. now right.
Qed.

(** X8: [get_pr_templates] returns a list exactly when every one of the
    seven template files can be read, and the list then holds one record
    per entry of the table, in the order of the table, with the file name,
    the label and the text read. *)
Theorem catalog_lists_every_template fs templates :
  get_pr_templates fs = JArr templates
  <-> (forall name, In name (map fst DEFAULT_TEMPLATES) -> readable fs name)
      /\ templates
         = map (fun entry => template_record (fst entry) (snd entry)
                               (content_of fs (fst entry))) DEFAULT_TEMPLATES.
Proof.
  unfold get_pr_templates. split.
  - intros H.
    destruct (read_templates fs DEFAULT_TEMPLATES) as [l|msg] eqn:E;
      [|discriminate].
    injection H as ->.
    pose proof (read_templates_inv fs DEFAULT_TEMPLATES templates E) as Hall.
    split; [exact Hall|].
    rewrite (read_templates_all fs DEFAULT_TEMPLATES Hall) in E.
    now injection E.
  - intros [Hall ->]. now rewrite (read_templates_all fs DEFAULT_TEMPLATES Hall).
Qed.

Lemma catalog_lists_every_template_witness :
  map (field "filename") 
      (map (fun entry => template_record (fst entry) (snd entry)
                           (content_of templates_present (fst entry)))
           DEFAULT_TEMPLATES)
  = map (fun name => Some (JStr name))
        [ "bug.md"; "feature.md"; "docs.md"; "refactor.md"; "test.md";
          "performance.md"; "security.md" ]
  /\ forall name, In name (map fst DEFAULT_TEMPLATES) ->
                  readable templates_present name.
Proof.
  split; [reflexivity|].
  apply (proj1 (catalog_lists_every_template templates_present
                  (map (fun entry => template_record (fst entry) (snd entry)
                                       (content_of templates_present (fst entry)))
                       DEFAULT_TEMPLATES))).
  reflexivity.
Defined.

(** X9: the catalog is all or nothing: when a template file cannot be
    read, [get_pr_templates] returns the object with the single key [error]
    and no template at all, and the text is that of the first file of the
    table that fails, whatever the files after it. *)
Theorem catalog_fails_on_first_unreadable fs before name type after msg :
  DEFAULT_TEMPLATES = (before ++ (name, type) :: after)%list ->
  (forall x, In x (map fst before) -> readable fs x) ->
  read_text fs name = Raise msg ->
  get_pr_templates fs = JObj [ ("error", JStr msg) ].
Proof.
  intros Htable Hb Hn. unfold get_pr_templates. rewrite Htable.
  now rewrite (read_templates_first_failure fs before name type after msg Hb Hn).
Qed.

Lemma catalog_fails_on_first_unreadable_witness :
  get_pr_templates security_unreadable
  = JObj [ ("error", JStr "[Errno 13] Permission denied") ].
Proof.
  apply (catalog_fails_on_first_unreadable security_unreadable
           [ ("bug.md", "Bug Fix"); ("feature.md", "Feature");
             ("docs.md", "Documentation"); ("refactor.md", "Refactor");
             ("test.md", "Test"); ("performance.md", "Performance") ]
           "security.md" "Security" []);
    [reflexivity| |reflexivity].
  intros x Hx. simpl in Hx.
  repeat (destruct Hx as [<-|Hx]; [eexists; reflexivity|]). contradiction.
Defined.

(** ** The alias table *)

(** X10: whatever the change type, the file name line 198 resolves it to
    is the name of a template of the catalog: no alias, and not the default,
    points outside [DEFAULT_TEMPLATES]. *)
Theorem resolved_type_is_in_catalog (change_type : string) :
  In (template_type_of change_type) (map fst DEFAULT_TEMPLATES).
Proof.
  pose proof (get_in TYPE_MAPPING (Py.lower change_type) "feature.md") as H.
  fold (template_type_of change_type) in H. simpl in H. simpl.
  repeat (destruct H as [<-|H]; [tauto|]). contradiction.
Qed.

(** X11: the alias table is looked up without regard to letter case:
    a change type whose lower-case form is a key of the table resolves
    to the file name the table gives for that key. *)
Theorem alias_lookup_ignores_case (change_type key target : string) :
  In (key, target) TYPE_MAPPING ->
  Py.lower change_type = key ->
  template_type_of change_type = target.
Proof.
  intros Hin Hlow. unfold template_type_of. rewrite Hlow. simpl in Hin.
  repeat (destruct Hin as [[= <- <-]|Hin]; [reflexivity|]). contradiction.
Qed.

Lemma alias_lookup_ignores_case_witness :
  template_type_of "Optimization" = "performance.md".
Proof.
  apply (alias_lookup_ignores_case "Optimization" "optimization" "performance.md");
    [simpl; tauto|reflexivity].
Defined.

(** ** The loop of lines 200-206 *)

Lemma scan_from first others target to_visit acc :
  Forall has_filename to_visit ->
  scan (JArr (first :: others)) target to_visit acc
  = Ok (match find (named target) to_visit with
        | Some template => Some template
        | None => match to_visit with
                  | [] => acc
                  | _ :: _ => Some first
                  end
        end).
Proof.
  intros H. revert acc.
  induction H as [|template rest (fields & name & -> & Hname) _ IH];
    intros acc; [reflexivity|].
  simpl scan. unfold Dyn.item. rewrite Hname. cbn [bind].
  cbn [find]. unfold named at 1. cbn [field]. rewrite Hname.
  destruct (Dyn.eq_str name target); [reflexivity|].
  rewrite IH.
  destruct (find (named target) rest); [reflexivity|].
  now destruct rest.
Qed.

(** X12: run over a list of records that all have a [filename], the loop
    of lines 200-206 selects the first record whose file name is the one
    looked for; the fall-back to the first element of the list decides only
    when no record matches, and on the empty list nothing is selected. *)
Theorem scan_selects_first_match templates target :
  Forall has_filename templates ->
  scan (JArr templates) target templates None
  = Ok (match find (named target) templates with
        | Some template => Some template
        | None => hd_error templates
        end).
Proof.
  intros H. destruct templates as [|first others]; [reflexivity|].
  rewrite (scan_from first others target (first :: others) None H).
  now destruct (find (named target) (first :: others)).
Qed.

Lemma scan_selects_first_match_witness :
  scan (JArr three_templates) "docs.md" three_templates None
  = Ok (Some (template_record "docs.md" "Documentation" "d"))
  /\ scan (JArr three_templates) "style.md" three_templates None
     = Ok (Some (template_record "bug.md" "Bug Fix" "b")).
Proof.
  assert (Forall has_filename three_templates) as H.
  { repeat constructor; eexists _, _; (split; [reflexivity|reflexivity]). }
  split.
  - rewrite (scan_selects_first_match three_templates "docs.md" H). reflexivity.
  - rewrite (scan_selects_first_match three_templates "style.md" H). reflexivity.
Defined.

(** ** What [suggest_template] returns *)

(** X13: the payload of [suggest_template] does not depend on the summary
    nor on the change type: two calls over the same template files return
    the same payload, whose [reasoning] holds the words "changes_summary"
    and the text of the exception in place of the caller's summary and
    change type. *)
Theorem suggestion_ignores_its_arguments fs summary change_type
    summary' change_type' :
  suggest_template fs summary change_type
  = suggest_template fs summary' change_type'
  /\ exists e,
       field "reasoning" (suggest_template fs summary change_type)
       = Some (JStr ("Based on your analysis: changes_summary, this appears to be a "
                     ++ str e ++ " change.")).
Proof.
  unfold suggest_template.
  destruct (read_templates fs DEFAULT_TEMPLATES) as [templates|m] eqn:E.
  - rewrite !(suggestion_over_list fs _ _ templates E).
    split; [reflexivity|]. eexists. reflexivity.
  - rewrite !(suggestion_over_error fs _ _ m E).
    split; [reflexivity|]. eexists. reflexivity.
Qed.

(** ** The diagnostics *)

(** X14: the diagnostics always have the same five keys.  The directory
    reported as provided is null or a text; when it is a text other than
    the empty one, the directory reported as used is that text; when it is
    null or empty, the directory used is the process directory; and when the
    roots were found, [count] is the number of entries of [roots]. *)
Theorem diagnostics_are_consistent w wd :
  exists provided check,
    debug_info w wd
    = JObj [ ("provided_working_directory", provided);
             ("actual_cwd", JStr (resolve_cwd w wd));
             ("server_process_cwd", JStr (getcwd w));
             ("server_file_location", JStr (server_file_location w));
             ("roots_check", check) ]
    /\ (provided = JNull \/ exists d, provided = JStr d)
    /\ (forall d, provided = JStr d -> d <> EmptyString ->
                  resolve_cwd w wd = d)
    /\ (provided = JNull \/ provided = JStr EmptyString ->
        resolve_cwd w wd = getcwd w)
    /\ ((exists uris,
           check = JObj [ ("found", JBool true);
                          ("count", JInt (Py.len uris));
                          ("roots", JArr (map JStr uris)) ])
        \/ (exists msg,
              check = JObj [ ("found", JBool false); ("error", JStr msg) ])).
Proof.
  unfold debug_info, resolve_cwd.
  destruct (after_roots w wd) as [dir calls]. cbn [fst Py.set String.eqb].
  eexists _, _. split; [reflexivity|].
  split; [destruct dir as [d|]; [right; now exists d|now left]|].
  split; [|split].
  - intros d Hd Hne. destruct dir as [d'|]; [|discriminate].
    injection Hd as ->. now apply choose_cwd_some.
  - destruct dir as [d'|]; [|reflexivity].
    intros [H|H]; [discriminate|]. injection H as ->. reflexivity.
  - destruct (list_roots w calls) as [msg|roots]; simpl.
    + right. now exists msg.
    + left. exists (map uri roots).
      unfold Py.len. now rewrite length_map, map_map.
Qed.

(** An explicit empty directory and an explicit one: the directory used. *)
Lemma diagnostics_are_consistent_witness :
  resolve_cwd abc_world (Some "") = getcwd abc_world
  /\ resolve_cwd abc_world (Some "/work") = "/work".
Proof.
  split.
  - destruct (diagnostics_are_consistent abc_world (Some ""))
      as (provided & check & Heq & _ & _ & Hempty & _).
    apply Hempty. right.
    cbv in Heq. now injection Heq as <- _.
  - destruct (diagnostics_are_consistent abc_world (Some "/work"))
      as (provided & check & Heq & _ & Hgiven & _).
    apply Hgiven; [|discriminate].
    cbv in Heq. now injection Heq as <- _.
Defined.

(** ** A negative limit *)

(** X15: a negative limit [-k] is taken as a slice bound counted from the
    end: the diff is always truncated, it keeps all the lines but the last
    [k] (none when there are [k] lines or fewer), and the notice shows the
    negative number. *)
Theorem negative_limit_drops_last_lines w base n wd report rc out err :
  n < 0 ->
  analysis w base n true wd = Ok report ->
  git w (diff_query base) (resolve_cwd w wd) = Completed rc out err ->
  let diff_lines := Py.split newline out in
  field "truncated" report = Some (JBool true)
  /\ field "diff" report
     = Some (JStr (Py.join nl (firstn (length diff_lines - Z.to_nat (- n)) diff_lines)
                   ++ truncation_notice n (line_count out))).
Proof.
  intros Hn Hrep Hgit diff_lines.
  destruct (report_included w base n wd report rc out err Hrep Hgit)
    as (files & stat & commits & ->).
  pose proof (split_len newline out) as HL.
  unfold cut_diff, Py.slice_to. fold diff_lines. fold diff_lines in HL.
  destruct (Z.gtb_spec (Py.len diff_lines) n) as [_|Hle]; [|lia].
  destruct (Z.ltb_spec n 0) as [_|Hge]; [|lia].
  split; [reflexivity|].
  replace (Z.to_nat (Py.len diff_lines + n))
    with (length diff_lines - Z.to_nat (- n))%nat by (unfold Py.len; lia).
  reflexivity.
Qed.

Lemma negative_limit_drops_last_lines_witness :
  field "diff" (analyze_file_changes abc_world "main" (-2) true None)
  = Some (JStr ("a" ++ truncation_notice (-2) 3)).
Proof.
  destruct (negative_limit_drops_last_lines abc_world "main" (-2) None
              (analyze_file_changes abc_world "main" (-2) true None)
              0 ("a" ++ nl ++ "b" ++ nl ++ "c") "")
    as (_ & Hd); [lia|vm_compute; reflexivity|reflexivity|].
  exact Hd.
Defined.
